(** * create-user-form.tsx: the password rules and the submit handler

    A shallow embedding of [challenge/react/src/create-user-form.tsx]:
    the [PASSWORD_CRITERIA] table, the derived values [activeCriteria],
    [isPasswordValid] and [isFormValid], the [handleSubmit] handler with its
    try / catch / finally, and the controls of the rendered form. *)

From Stdlib Require Import ZArith List String Ascii Bool Lia.
Import ListNotations.
Open Scope Z_scope.

(** ** JavaScript strings

    A JavaScript string is a sequence of UTF-16 code units; [length] counts
    code units and a regular expression without the [u] flag matches code
    units. *)

Module JS.

Definition jsstring := list Z.

(** Code unit of an ASCII character, and a string literal of the source. *)
Definition code (a : ascii) : Z := Z.of_N (N_of_ascii a).

Definition lit (s : string) : jsstring := map code (list_ascii_of_string s).

(** [s.length] *)
Definition length (s : jsstring) : Z := Z.of_nat (List.length s).

(** [!s]: the empty string is the only falsy string. *)
Definition falsy (s : jsstring) : bool :=
  match s with [] => true | _ :: _ => false end.

(** WhiteSpace and LineTerminator of ECMAScript: what [\s] matches and what
    [trim] strips. TAB, LF, VT, FF, CR, SP, NBSP, U+1680, U+2000..U+200A,
    U+2028, U+2029, U+202F, U+205F, U+3000, U+FEFF. *)
Definition is_whitespace (c : Z) : bool :=
  ((9 <=? c) && (c <=? 13))
  || (c =? 32) || (c =? 160) || (c =? 5760)
  || ((8192 <=? c) && (c <=? 8202))
  || (c =? 8232) || (c =? 8233) || (c =? 8239) || (c =? 8287)
  || (c =? 12288) || (c =? 65279).

(** The regular expressions of the source all consist of one character
    class: [\s], [\d], [[A-Z]], [[a-z]]. *)
Inductive CharClass : Type :=
| class_s
| class_d
| class_range (lo hi : ascii).

Definition class_matches (k : CharClass) (c : Z) : bool :=
  match k with
  | class_s => is_whitespace c
  | class_d => (code "0" <=? c) && (c <=? code "9")
  | class_range lo hi => (code lo <=? c) && (c <=? code hi)
  end.

(** [/k/.test(s)]: the pattern matches at some position of [s]. *)
Definition regex_test (k : CharClass) (s : jsstring) : bool :=
  existsb (class_matches k) s.

(** [s.trim()] *)
Fixpoint trimStart (s : jsstring) : jsstring :=
  match s with
  | [] => []
  | c :: t => if is_whitespace c then trimStart t else s
  end.

Definition trimEnd (s : jsstring) : jsstring := rev (trimStart (rev s)).

Definition trim (s : jsstring) : jsstring := trimEnd (trimStart s).

(** [s.includes(sub)] of String.prototype. *)
Fixpoint startsWith (sub s : jsstring) : bool :=
  match sub, s with
  | [], _ => true
  | _ :: _, [] => false
  | a :: sub', b :: s' => (a =? b) && startsWith sub' s'
  end.

Fixpoint includes (s sub : jsstring) : bool :=
  startsWith sub s
  || match s with
     | [] => false
     | _ :: s' => includes s' sub
     end.

(** Strict equality of two strings. *)
Fixpoint str_eqb (s t : jsstring) : bool :=
  match s, t with
  | [], [] => true
  | a :: s', b :: t' => (a =? b) && str_eqb s' t'
  | _, _ => false
  end.

#[local] Set Warnings "-register-all".

(** What [response.json()] resolves with. A number is kept as its literal:
    nothing in this component looks into one. An object is the list of its
    own properties. *)
Inductive json : Type :=
| JNull
| JBool (b : bool)
| JNumber (literal : string)
| JString (s : jsstring)
| JArray (elems : list json)
| JObject (props : list (jsstring * json)).

(** Own property of an object; [None] is [undefined]. *)
Fixpoint get_prop (key : jsstring) (props : list (jsstring * json)) : option json :=
  match props with
  | [] => None
  | (k, v) :: rest => if str_eqb k key then Some v else get_prop key rest
  end.

End JS.

Import JS.

(** ** The password rules *)

Record Criterion : Type := mkCriterion {
  id : string;
  label : string;
  validate : jsstring -> bool
}.

Definition PASSWORD_CRITERIA : list Criterion := [
  mkCriterion "min-length" "Password must be at least 10 characters long"
    (fun p => length p >=? 10);
  mkCriterion "max-length" "Password must be at most 24 characters long"
    (fun p => length p <=? 24);
  mkCriterion "no-spaces" "Password cannot contain spaces"
    (fun p => negb (regex_test class_s p));
  mkCriterion "has-number" "Password must contain at least one number"
    (fun p => regex_test class_d p);
  mkCriterion "has-upper" "Password must contain at least one uppercase letter"
    (fun p => regex_test (class_range "A" "Z") p);
  mkCriterion "has-lower" "Password must contain at least one lowercase letter"
    (fun p => regex_test (class_range "a" "z") p)
].

Definition API_BASE_URL : string :=
  "https://api.challenge.hennge.com/password-validation-challenge-api/001".

(** [activeCriteria]: the labels of the rules the password does not meet. *)
Definition activeCriteria (password : jsstring) : list string :=
  if falsy password then map label PASSWORD_CRITERIA
  else map label (filter (fun c => negb (validate c password)) PASSWORD_CRITERIA).

(** [isPasswordValid] and [isFormValid] of a render. *)
Definition isPasswordValid (password : jsstring) : bool :=
  (Z.of_nat (List.length (activeCriteria password)) =? 0) && (length password >? 0).

Definition isFormValid (username password : jsstring) : bool :=
  (length (trim username) >? 0) && isPasswordValid password.

(** ** State, effects and the handler's monad *)

(** The four [useState] cells of the component. *)
Record FormState : Type := mkFormState {
  username : jsstring;
  password : jsstring;
  apiError : option string;
  isLoading : bool
}.

(** What the component does to its surroundings: the request it passes to
    [fetch] and a call of the [setUserWasCreated] prop. *)
Inductive Effect : Type :=
| Fetch (url : string) (authorization : string) (body_username body_password : jsstring)
| SetUserWasCreated (value : bool).

Record World : Type := mkWorld {
  form : FormState;
  trace : list Effect
}.

(** What can be thrown inside the handler. *)
Inductive Exn : Type :=
| NetworkError
| TypeError.

Inductive Completion (A : Type) : Type :=
| Normal (a : A)
| Throws (e : Exn).
Arguments Normal {A} a.
Arguments Throws {A} e.

(** A computation reads and writes the world and completes normally or
    abruptly. *)
Definition M (A : Type) : Type := World -> Completion A * World.

Definition ret {A} (a : A) : M A := fun w => (Normal a, w).

Definition bind {A B} (m : M A) (k : A -> M B) : M B :=
  fun w =>
    match m w with
    | (Normal a, w') => k a w'
    | (Throws e, w') => (Throws e, w')
    end.

Definition throw {A} (e : Exn) : M A := fun w => (Throws e, w).

(** [try { body } catch (err) { handler err }] *)
Definition try_catch {A} (body : M A) (handler : Exn -> M A) : M A :=
  fun w =>
    match body w with
    | (Normal a, w') => (Normal a, w')
    | (Throws e, w') => handler e w'
    end.

(** [try { body } finally { fin }] *)
Definition try_finally {A} (body : M A) (fin : M unit) : M A :=
  fun w =>
    match body w with
    | (c, w') =>
        match fin w' with
        | (Normal _, w'') => (c, w'')
        | (Throws e, w'') => (Throws e, w'')
        end
    end.

Definition lift {A} (c : Completion A) : M A := fun w => (c, w).

Declare Scope handler_scope.
Delimit Scope handler_scope with handler.
Notation "x <- m ;; k" := (bind m (fun x => k))
  (at level 61, m at next level, right associativity) : handler_scope.
Notation "m ;; k" := (bind m (fun _ => k))
  (at level 61, right associativity) : handler_scope.
Open Scope handler_scope.

Definition get_form : M FormState := fun w => (Normal (form w), w).

Definition update_form (f : FormState -> FormState) : M unit :=
  fun w => (Normal tt, mkWorld (f (form w)) (trace w)).

Definition emit (e : Effect) : M unit :=
  fun w => (Normal tt, mkWorld (form w) (trace w ++ [e])).

(** The state setters. *)
Definition setUsername (v : jsstring) : M unit :=
  update_form (fun s => mkFormState v (password s) (apiError s) (isLoading s)).

Definition setPassword (v : jsstring) : M unit :=
  update_form (fun s => mkFormState (username s) v (apiError s) (isLoading s)).

Definition setApiError (v : option string) : M unit :=
  update_form (fun s => mkFormState (username s) (password s) v (isLoading s)).

Definition setIsLoading (v : bool) : M unit :=
  update_form (fun s => mkFormState (username s) (password s) (apiError s) v).

(** The prop [setUserWasCreated] belongs to the owner of the component. *)
Definition setUserWasCreated (v : bool) : M unit := emit (SetUserWasCreated v).

(** ** The network *)

(** A response: its status and what [response.json()] does, [None] when the
    promise rejects (the body is not JSON). *)
Record Response : Type := mkResponse {
  status : Z;
  body : option json
}.

(** [response.ok] *)
Definition ok (r : Response) : bool := (200 <=? status r) && (status r <=? 299).

(** How the promise of [fetch] settles: rejected, or resolved with a
    response. *)
Inductive FetchOutcome : Type :=
| Rejected
| Resolved (r : Response).

(** [await fetch(...)], split at the suspension point: the request leaves,
    and later the promise settles. *)
Definition send_request (u p : jsstring) : M unit :=
  emit (Fetch (API_BASE_URL ++ "/challenge-signup") "YOUR_TOKEN_HERE" u p).

Definition settle (o : FetchOutcome) : M Response :=
  match o with
  | Rejected => throw NetworkError
  | Resolved r => ret r
  end.

(** [await response.json().catch(() => ({}))] *)
Definition json_or_empty (r : Response) : M json :=
  match body r with
  | Some v => ret v
  | None => ret (JObject [])
  end.

(** [errorData.message]: reading a property of [null] throws; a boolean, a
    number, a string and an array have no such property. *)
Definition get_message (errorData : json) : Completion (option json) :=
  match errorData with
  | JNull => Throws TypeError
  | JObject props => Normal (get_prop (lit "message") props)
  | _ => Normal None
  end.

(** [m?.includes(needle)]: [undefined] for a missing or [null] [m]; the
    method of String.prototype for a string and of Array.prototype for an
    array; any other value has no callable [includes]. The result [None] is
    [undefined]. *)
Definition optional_includes (m : option json) (needle : jsstring)
  : Completion (option bool) :=
  match m with
  | None => Normal None
  | Some JNull => Normal None
  | Some (JString s) => Normal (Some (includes s needle))
  | Some (JArray elems) =>
      Normal (Some (existsb (fun e => match e with
                                      | JString s => str_eqb s needle
                                      | _ => false
                                      end) elems))
  | Some _ => Throws TypeError
  end.

Definition truthy (v : option bool) : bool :=
  match v with Some true => true | _ => false end.

(** The three messages the handler can show. *)
Definition MSG_NOT_AUTHENTICATED : string :=
  "Not authenticated to access this resource.".
Definition MSG_NOT_ALLOWED : string :=
  "Sorry, the entered password is not allowed, please try a different one.".
Definition MSG_WENT_WRONG : string :=
  "Something went wrong, please try again.".

(** ** [handleSubmit] *)

(** [e.preventDefault()] touches nothing of the component. *)
Definition preventDefault : M unit := ret tt.

(** [await fetch(url, {...})] *)
Definition fetch (u p : jsstring) (o : FetchOutcome) : M Response :=
  send_request u p ;; settle o.

(** [response.status === 400 && errorData.message?.includes('not allowed')]:
    the right operand is evaluated only for status 400. *)
Definition is_not_allowed (r : Response) (errorData : json) : M bool :=
  if status r =? 400 then
    m <- lift (get_message errorData) ;;
    v <- lift (optional_includes m (lit "not allowed")) ;;
    ret (truthy v)
  else ret false.

(** The [else] branch of [if (response.ok)]. *)
Definition on_error_response (r : Response) : M unit :=
  errorData <- json_or_empty r ;;
  if (status r =? 401) || (status r =? 403) then
    setApiError (Some MSG_NOT_AUTHENTICATED)
  else
    c <- is_not_allowed r errorData ;;
    if c then setApiError (Some MSG_NOT_ALLOWED)
    else if status r =? 500 then setApiError (Some MSG_WENT_WRONG)
    else setApiError (Some MSG_WENT_WRONG).

Definition on_response (r : Response) : M unit :=
  if ok r then setUserWasCreated true else on_error_response r.

(** The handler; [o] is how the promise of [fetch] settles. [username],
    [password] and [isFormValid] are those of the render the handler was
    created in. *)
Definition handleSubmit (o : FetchOutcome) : M unit :=
  s <- get_form ;;
  preventDefault ;;
  setApiError None ;;
  if negb (isFormValid (username s) (password s)) then ret tt
  else
    setIsLoading true ;;
    try_finally
      (try_catch
         (response <- fetch (username s) (password s) o ;;
          on_response response)
         (fun _ => setApiError (Some MSG_WENT_WRONG)))
      (setIsLoading false).

(** The handler in two halves around its [await]: up to the request (the
    result tells whether one left), and from the settled promise on. *)
Definition handleSubmit_start : M bool :=
  s <- get_form ;;
  preventDefault ;;
  setApiError None ;;
  if negb (isFormValid (username s) (password s)) then ret false
  else
    setIsLoading true ;;
    send_request (username s) (password s) ;;
    ret true.

Definition handleSubmit_resume (o : FetchOutcome) : M unit :=
  try_finally
    (try_catch
       (response <- settle o ;; on_response response)
       (fun _ => setApiError (Some MSG_WENT_WRONG)))
    (setIsLoading false).

(** ** The rendered form *)

(** [disabled] of the two inputs and of the submit button. *)
Definition input_disabled (s : FormState) : bool := isLoading s.

Definition button_disabled (s : FormState) : bool :=
  isLoading s || negb (isFormValid (username s) (password s)).

(** The component with the requests it has in flight. *)
Record Sys : Type := mkSys {
  world : World;
  inflight : nat
}.

(** What reaches the component: typing into an input, activating the submit
    button, a submit event delivered to the form without the button (by
    script, as [requestSubmit] does), and the settling of a request. *)
Inductive Event : Type :=
| TypeUsername (v : jsstring)
| TypePassword (v : jsstring)
| ClickSubmit
| SubmitEvent
| Settle (o : FetchOutcome).

Definition initial : Sys :=
  mkSys (mkWorld (mkFormState [] [] None false) []) 0.

Definition exec (m : M unit) (s : Sys) : Sys :=
  mkSys (snd (m (world s))) (inflight s).

(** [onSubmit={handleSubmit}] *)
Definition deliver_submit (s : Sys) : Sys :=
  match handleSubmit_start (world s) with
  | (Normal true, w) => mkSys w (S (inflight s))
  | (_, w) => mkSys w (inflight s)
  end.

Definition step (s : Sys) (e : Event) : Sys :=
  match e with
  | TypeUsername v =>
      if input_disabled (form (world s)) then s else exec (setUsername v) s
  | TypePassword v =>
      if input_disabled (form (world s)) then s else exec (setPassword v) s
  | ClickSubmit =>
      if button_disabled (form (world s)) then s else deliver_submit s
  | SubmitEvent => deliver_submit s
  | Settle o =>
      match inflight s with
      | O => s
      | S n => mkSys (snd (handleSubmit_resume o (world s))) n
      end
  end.

Definition run (s : Sys) (es : list Event) : Sys := fold_left step es s.

(** Events that come through the controls of the form. *)
Definition through_controls (e : Event) : bool :=
  match e with SubmitEvent => false | _ => true end.

(** The values [setUserWasCreated] was called with, and the requests. *)
Definition created_calls (t : list Effect) : list bool :=
  flat_map (fun e => match e with SetUserWasCreated b => [b] | _ => [] end) t.

Definition fetch_calls (t : list Effect) : list Effect :=
  filter (fun e => match e with Fetch _ _ _ _ => true | _ => false end) t.

(** ** The rules in words *)

(** Array.prototype.filter calls its predicate on every element, in order;
    the first component names the elements it was called on. *)
Fixpoint filter_calls {A} (name : A -> string) (f : A -> bool) (l : list A)
  : list string * list A :=
  match l with
  | [] => ([], [])
  | x :: t =>
      let b := f x in
      let (calls, kept) := filter_calls name f t in
      (name x :: calls, if b then x :: kept else kept)
  end.

Definition activeCriteria_calls (password : jsstring) : list string * list string :=
  if falsy password then ([], map label PASSWORD_CRITERIA)
  else
    let (calls, kept) :=
      filter_calls id (fun c => negb (validate c password)) PASSWORD_CRITERIA in
    (calls, map label kept).

(** [l1] is [l2] with some elements left out, order kept. *)
Inductive Subseq {A} : list A -> list A -> Prop :=
| Subseq_nil : Subseq [] []
| Subseq_skip x l1 l2 : Subseq l1 l2 -> Subseq l1 (x :: l2)
| Subseq_keep x l1 l2 : Subseq l1 l2 -> Subseq (x :: l1) (x :: l2).

(** The six rules as the specification words them. *)
Definition Whitespace (c : Z) : Prop :=
  In c [9; 10; 11; 12; 13; 32; 160; 5760; 8232; 8233; 8239; 8287; 12288; 65279]
  \/ 8192 <= c <= 8202.

Definition DecimalDigit (c : Z) : Prop := code "0" <= c <= code "9".
Definition UppercaseLatin (c : Z) : Prop := code "A" <= c <= code "Z".
Definition LowercaseLatin (c : Z) : Prop := code "a" <= c <= code "z".

Definition satisfies_all_rules (p : jsstring) : Prop :=
  10 <= length p
  /\ length p <= 24
  /\ (forall c, In c p -> ~ Whitespace c)
  /\ (exists c, In c p /\ DecimalDigit c)
  /\ (exists c, In c p /\ UppercaseLatin c)
  /\ (exists c, In c p /\ LowercaseLatin c).

(** The response table as the specification words it: the message shown
    for a response that is not 2xx, given whether the parsed body has a
    [message] string with "not allowed" in it. *)
Definition message_has (r : Response) (needle : jsstring) : bool :=
  match body r with
  | Some (JObject props) =>
      match get_prop (lit "message") props with
      | Some (JString s) => includes s needle
      | _ => false
      end
  | _ => false
  end.

Definition spec_table (r : Response) : string :=
  if (status r =? 401) || (status r =? 403) then MSG_NOT_AUTHENTICATED
  else if (status r =? 400) && message_has r (lit "not allowed") then MSG_NOT_ALLOWED
  else MSG_WENT_WRONG.

(** The one case the duck-typed [includes] adds: a [message] that is an
    array with the string itself among its elements. *)
Definition message_lists (r : Response) (needle : jsstring) : bool :=
  match body r with
  | Some (JObject props) =>
      match get_prop (lit "message") props with
      | Some (JArray elems) =>
          existsb (fun e => match e with
                            | JString s => str_eqb s needle
                            | _ => false
                            end) elems
      | _ => false
      end
  | _ => false
  end.

Definition code_table (r : Response) : string :=
  if (status r =? 401) || (status r =? 403) then MSG_NOT_AUTHENTICATED
  else if (status r =? 400)
          && (message_has r (lit "not allowed") || message_lists r (lit "not allowed"))
       then MSG_NOT_ALLOWED
  else MSG_WENT_WRONG.

(** What a settled request leaves in [apiError], given what was there, and
    what it adds to the trace. *)
Definition settled_error (o : FetchOutcome) (before : option string) : option string :=
  match o with
  | Rejected => Some MSG_WENT_WRONG
  | Resolved r => if ok r then before else Some (code_table r)
  end.

Definition settled_effects (o : FetchOutcome) : list Effect :=
  match o with
  | Rejected => []
  | Resolved r => if ok r then [SetUserWasCreated true] else []
  end.

Definition request_of (s : FormState) : Effect :=
  Fetch (API_BASE_URL ++ "/challenge-signup") "YOUR_TOKEN_HERE" (username s) (password s).

(** Whether the request ended in a 2xx response. *)
Definition outcome_ok (o : FetchOutcome) : bool :=
  match o with
  | Rejected => false
  | Resolved r => ok r
  end.

(** With every submission started through the button, a request is in
    flight exactly while [isLoading] is set. *)
Definition loading_tracks_inflight (s : Sys) : Prop :=
  inflight s = if isLoading (form (world s)) then 1%nat else 0%nat.

(** ** What the component renders

    The attributes and children of the returned form that depend on the
    state; the inline styles are left out. *)

(** Truthiness of a string, as in [{apiError && <p>...</p>}]. *)
Definition string_truthy (m : string) : bool :=
  match m with EmptyString => false | String _ _ => true end.

Record View : Type := mkView {
  username_value : jsstring;
  username_disabled : bool;
  username_aria_invalid : bool;
  password_value : jsstring;
  password_disabled : bool;
  password_aria_invalid : bool;
  criteria_list : option (list string);
  error_paragraph : option string;
  submit_disabled : bool;
  submit_label : string
}.

Definition render (s : FormState) : View :=
  mkView
    (username s)
    (input_disabled s)
    (falsy (trim (username s)))
    (password s)
    (input_disabled s)
    (negb (isPasswordValid (password s)))
    (if (length (password s) >? 0)
        && (Z.of_nat (List.length (activeCriteria (password s))) >? 0)
     then Some (activeCriteria (password s)) else None)
    (match apiError s with
     | Some m => if string_truthy m then Some m else None
     | None => None
     end)
    (button_disabled s)
    (if isLoading s then "Creating..." else "Create User").

(** Events of the two inputs. *)
Definition is_typing (e : Event) : bool :=
  match e with TypeUsername _ | TypePassword _ => true | _ => false end.

(** The messages [setApiError] is ever called with, and [null]. *)
Definition known_error (m : option string) : Prop :=
  m = None \/ m = Some MSG_NOT_AUTHENTICATED \/ m = Some MSG_NOT_ALLOWED
  \/ m = Some MSG_WENT_WRONG.

(** ** Strings and character classes *)

Lemma is_whitespace_spec (c : Z) : is_whitespace c = true <-> Whitespace c.
Proof.
  unfold is_whitespace, Whitespace; simpl In.
  rewrite !orb_true_iff, !andb_true_iff, !Z.leb_le, !Z.eqb_eq.
  lia.
Qed.

Lemma regex_test_spec (k : CharClass) (s : jsstring) :
  regex_test k s = true <-> exists c, In c s /\ class_matches k c = true.
Proof. unfold regex_test. apply existsb_exists. Qed.

Lemma regex_test_class_s_false (s : jsstring) :
  regex_test class_s s = false <-> forall c, In c s -> ~ Whitespace c.
Proof.
  split.
  - intros H c Hin Hw.
    assert (regex_test class_s s = true) as Ht.
    { apply regex_test_spec. exists c. split; [exact Hin|].
      simpl. now apply is_whitespace_spec. }
    congruence.
  - intros H. destruct (regex_test class_s s) eqn:E; [|reflexivity].
    apply regex_test_spec in E. destruct E as (c & Hin & Hm).
    simpl in Hm. apply is_whitespace_spec in Hm. now elim (H c Hin).
Qed.

Lemma regex_test_class_d (s : jsstring) :
  regex_test class_d s = true <-> exists c, In c s /\ DecimalDigit c.
Proof.
  rewrite regex_test_spec. unfold DecimalDigit.
  split; intros (c & Hin & H); exists c; (split; [exact Hin|]);
    cbn [class_matches] in *;
    rewrite andb_true_iff, !Z.leb_le in *; exact H.
Qed.

Lemma regex_test_class_range (lo hi : ascii) (s : jsstring) :
  regex_test (class_range lo hi) s = true
  <-> exists c, In c s /\ code lo <= c <= code hi.
Proof.
  rewrite regex_test_spec.
  split; intros (c & Hin & H); exists c; (split; [exact Hin|]);
    cbn [class_matches] in *;
    rewrite andb_true_iff, !Z.leb_le in *; exact H.
Qed.

Lemma length_nil_iff (s : jsstring) : length s = 0 <-> s = [].
Proof.
  unfold length. destruct s; simpl; split; intros H;
    try reflexivity; try discriminate; lia.
Qed.

Lemma trimStart_In (c : Z) (s : jsstring) :
  In c s -> is_whitespace c = false -> In c (trimStart s).
Proof.
  induction s as [|a s IH]; cbn; intros Hin Hc; [exact Hin|].
  destruct (is_whitespace a) eqn:E.
  - destruct Hin as [->|Hin]; [congruence | now apply IH].
  - exact Hin.
Qed.

Lemma trimStart_incl (c : Z) (s : jsstring) : In c (trimStart s) -> In c s.
Proof.
  induction s as [|a s IH]; cbn; [tauto|].
  destruct (is_whitespace a); [right; now apply IH | tauto].
Qed.

Lemma trimStart_head (s : jsstring) :
  match trimStart s with [] => True | c :: _ => is_whitespace c = false end.
Proof.
  induction s as [|a s IH]; cbn; [exact I|].
  destruct (is_whitespace a) eqn:E; [exact IH | exact E].
Qed.

(** [s.trim()] is not empty exactly when [s] has a code unit that is not
    whitespace. *)
Lemma trim_nonempty_iff (s : jsstring) :
  (length (trim s) >? 0) = true <-> exists c, In c s /\ ~ Whitespace c.
Proof.
  unfold trim, trimEnd, length. rewrite Z.gtb_lt, length_rev. split.
  - intros H.
    destruct (trimStart (rev (trimStart s))) as [|c t] eqn:E; [cbn in H; lia|].
    exists c. split.
    + apply trimStart_incl, in_rev, trimStart_incl. rewrite E. now left.
    + pose proof (trimStart_head (rev (trimStart s))) as Hh. rewrite E in Hh.
      rewrite <- is_whitespace_spec. congruence.
  - intros (c & Hin & Hc).
    assert (is_whitespace c = false) as Hf.
    { destruct (is_whitespace c) eqn:E; [|reflexivity].
      elim Hc. now apply is_whitespace_spec. }
    assert (In c (trimStart (rev (trimStart s)))) as H.
    { apply trimStart_In; [|exact Hf]. apply -> in_rev. now apply trimStart_In. }
    destruct (trimStart (rev (trimStart s))); [destruct H | cbn; lia].
Qed.

(** ** The rule engine *)

(** With a password that is not empty, the result is empty exactly when all
    six predicates hold. *)
Lemma activeCriteria_nil_iff_validate (p : jsstring) :
  activeCriteria p = []
  <-> p <> [] /\ forall c, In c PASSWORD_CRITERIA -> validate c p = true.
Proof.
  unfold activeCriteria. destruct p as [|a p]; cbn [falsy].
  - split; [discriminate | intros [H _]; now elim H].
  - split.
    + intros H. split; [discriminate|].
      intros c Hin.
      destruct (validate c (a :: p)) eqn:E; [reflexivity|].
      assert (In c (filter (fun c => negb (validate c (a :: p))) PASSWORD_CRITERIA)) as Hf.
      { apply filter_In. split; [exact Hin | now rewrite E]. }
      apply (in_map label) in Hf. rewrite H in Hf. destruct Hf.
    + intros [_ H].
      assert (filter (fun c => negb (validate c (a :: p))) PASSWORD_CRITERIA = []) as ->.
      { destruct (filter _ PASSWORD_CRITERIA) as [|c l] eqn:E; [reflexivity|].
        assert (In c (c :: l)) as Hin by (left; reflexivity).
        rewrite <- E in Hin. apply filter_In in Hin. destruct Hin as [Hin Hn].
        rewrite (H c Hin) in Hn. discriminate. }
      reflexivity.
Qed.

Lemma all_validate_iff (p : jsstring) :
  (forall c, In c PASSWORD_CRITERIA -> validate c p = true)
  <-> (length p >=? 10) = true
      /\ (length p <=? 24) = true
      /\ regex_test class_s p = false
      /\ regex_test class_d p = true
      /\ regex_test (class_range "A" "Z") p = true
      /\ regex_test (class_range "a" "z") p = true.
Proof.
  split.
  - intros H.
    repeat split.
    + apply (H (nth 0 PASSWORD_CRITERIA (mkCriterion "" "" (fun _ => true)))).
      simpl; tauto.
    + apply (H (nth 1 PASSWORD_CRITERIA (mkCriterion "" "" (fun _ => true)))).
      simpl; tauto.
    + apply negb_true_iff.
      apply (H (nth 2 PASSWORD_CRITERIA (mkCriterion "" "" (fun _ => true)))).
      simpl; tauto.
    + apply (H (nth 3 PASSWORD_CRITERIA (mkCriterion "" "" (fun _ => true)))).
      simpl; tauto.
    + apply (H (nth 4 PASSWORD_CRITERIA (mkCriterion "" "" (fun _ => true)))).
      simpl; tauto.
    + apply (H (nth 5 PASSWORD_CRITERIA (mkCriterion "" "" (fun _ => true)))).
      simpl; tauto.
  - intros (H1 & H2 & H3 & H4 & H5 & H6) c Hin.
    simpl in Hin.
    destruct Hin as [<-|[<-|[<-|[<-|[<-|[<-|[]]]]]]]; cbn [validate];
      try assumption.
    now rewrite H3.
Qed.

(** The six predicates hold of a password that is not empty exactly when
    it meets the six rules as worded. *)
Lemma validate_all_iff_rules (p : jsstring) :
  (p <> [] /\ forall c, In c PASSWORD_CRITERIA -> validate c p = true)
  <-> satisfies_all_rules p.
Proof.
  rewrite all_validate_iff.
  unfold satisfies_all_rules.
  rewrite regex_test_class_s_false, regex_test_class_d, !regex_test_class_range.
  unfold UppercaseLatin, LowercaseLatin.
  rewrite Z.geb_le, Z.leb_le.
  split.
  - intros [_ H]. exact H.
  - intros H. split; [|exact H].
    intros ->. destruct H as [H _]. unfold length in H. simpl in H. lia.
Qed.

(** C1. For every password, [activeCriteria] is empty if and only if the
    password meets all six rules at once: at least 10 and at most 24 code
    units, no whitespace, a decimal digit, an uppercase and a lowercase Latin
    letter. *)
Theorem activeCriteria_empty_iff_all_rules (p : jsstring) :
  activeCriteria p = [] <-> satisfies_all_rules p.
Proof.
  split.
  - intros H. apply validate_all_iff_rules.
    now apply activeCriteria_nil_iff_validate.
  - intros H. apply activeCriteria_nil_iff_validate.
    now apply validate_all_iff_rules.
Qed.

(** The examples of the specification. *)
Example activeCriteria_Abcdefghi1 :
  activeCriteria (lit "Abcdefghi1") = [] /\ isPasswordValid (lit "Abcdefghi1") = true.
Proof. split; reflexivity. Qed.

Example activeCriteria_short1A :
  activeCriteria (lit "short1A") = ["Password must be at least 10 characters long"%string].
Proof. reflexivity. Qed.

(** The form is valid exactly when the username has a code unit that is
    not whitespace and the password meets the six rules. *)
Lemma isFormValid_iff (u p : jsstring) :
  isFormValid u p = true
  <-> (exists c, In c u /\ ~ Whitespace c) /\ satisfies_all_rules p.
Proof.
  unfold isFormValid, isPasswordValid.
  rewrite !andb_true_iff, trim_nonempty_iff, Z.eqb_eq, Z.gtb_lt.
  rewrite <- validate_all_iff_rules, <- activeCriteria_nil_iff_validate.
  split.
  - intros (Hu & Hn & _). split; [exact Hu|].
    destruct (activeCriteria p); [reflexivity | cbn in Hn; lia].
  - intros (Hu & Hp). split; [exact Hu|]. split; [now rewrite Hp|].
    apply activeCriteria_nil_iff_validate in Hp. destruct Hp as [Hp _].
    unfold length. destruct p; [now elim Hp | cbn; lia].
Qed.

(** C8. On the empty string [activeCriteria] is the six rule descriptions,
    in the order of their declaration. *)
Theorem activeCriteria_of_empty_password :
  activeCriteria (lit "") =
  [ "Password must be at least 10 characters long";
    "Password must be at most 24 characters long";
    "Password cannot contain spaces";
    "Password must contain at least one number";
    "Password must contain at least one uppercase letter";
    "Password must contain at least one lowercase letter" ]%string
  /\ activeCriteria (lit "") = map label PASSWORD_CRITERIA
  /\ List.length (activeCriteria (lit "")) = 6%nat.
Proof. repeat split. Qed.

(** *** Each rule on its own, in the order of the table *)

Lemma NoDup_map_inj {A B} (g : A -> B) (l : list A) (a b : A) :
  NoDup (map g l) -> In a l -> In b l -> g a = g b -> a = b.
Proof.
  induction l as [|x l IH]; simpl; intros Hnd Ha Hb Hg; [destruct Ha|].
  inversion Hnd as [|? ? Hnotin Hnd']; subst.
  destruct Ha as [->|Ha], Hb as [->|Hb].
  - reflexivity.
  - elim Hnotin. rewrite Hg. now apply in_map.
  - elim Hnotin. rewrite <- Hg. now apply in_map.
  - now apply IH.
Qed.

Lemma In_map_filter_iff {A B} (g : A -> B) (f : A -> bool) (l : list A) (c : A) :
  NoDup (map g l) -> In c l ->
  (In (g c) (map g (filter f l)) <-> f c = true).
Proof.
  intros Hnd Hin. split.
  - intros H. apply in_map_iff in H. destruct H as (c' & Hg & Hf).
    apply filter_In in Hf. destruct Hf as [Hin' Hf].
    now rewrite <- (NoDup_map_inj g l c' c Hnd Hin' Hin Hg).
  - intros H. apply in_map. apply filter_In. now split.
Qed.

Lemma Subseq_map_filter {A B} (g : A -> B) (f : A -> bool) (l : list A) :
  Subseq (map g (filter f l)) (map g l).
Proof.
  induction l as [|x l IH]; simpl.
  - constructor.
  - destruct (f x); simpl; now constructor.
Qed.

Lemma filter_calls_spec {A} (name : A -> string) (f : A -> bool) (l : list A) :
  filter_calls name f l = (map name l, filter f l).
Proof.
  induction l as [|x l IH]; simpl; [reflexivity|].
  rewrite IH. reflexivity.
Qed.

Lemma labels_NoDup : NoDup (map label PASSWORD_CRITERIA).
Proof.
  simpl. repeat constructor; simpl; intuition discriminate.
Qed.

(** C9. For a password that is not empty, every one of the six predicates
    is called on the whole password, a rule's description is in the result
    if and only if its own predicate is false, whatever the other rules say,
    and the result keeps the order of the declaration. *)
Theorem activeCriteria_independent_in_declaration_order (p : jsstring) :
  p <> [] ->
  (forall c, In c PASSWORD_CRITERIA ->
     (In (label c) (activeCriteria p) <-> validate c p = false))
  /\ Subseq (activeCriteria p) (map label PASSWORD_CRITERIA)
  /\ fst (activeCriteria_calls p) = map id PASSWORD_CRITERIA
  /\ snd (activeCriteria_calls p) = activeCriteria p.
Proof.
  intros Hp.
  assert (falsy p = false) as Hf by (destruct p; [now elim Hp | reflexivity]).
  unfold activeCriteria, activeCriteria_calls. rewrite Hf, filter_calls_spec.
  cbn [fst snd].
  split; [|split; [|split]]; try reflexivity.
  - intros c Hin.
    rewrite (In_map_filter_iff label _ PASSWORD_CRITERIA c labels_NoDup Hin).
    apply negb_true_iff.
  - apply Subseq_map_filter.
Qed.

Lemma activeCriteria_independent_witness :
  lit "short1A" <> []
  /\ activeCriteria (lit "short1A") = ["Password must be at least 10 characters long"%string]
  /\ Subseq (activeCriteria (lit "short1A")) (map label PASSWORD_CRITERIA).
Proof.
  split; [discriminate|]. split; [reflexivity|].
  apply (activeCriteria_independent_in_declaration_order (lit "short1A")).
  discriminate.
Defined.

(** ** The handler *)

Ltac unfold_handler :=
  unfold handleSubmit, handleSubmit_start, handleSubmit_resume, fetch,
    on_response, on_error_response, is_not_allowed, json_or_empty,
    send_request, settle, preventDefault, setUserWasCreated, setApiError,
    setIsLoading, get_form, update_form, emit, try_finally, try_catch, lift,
    throw, bind, ret.

Ltac split_matches :=
  repeat match goal with
    | |- context [match ?x with _ => _ end] => destruct x eqn:?; cbn
    end.

(** The message an error response ends with is that of [code_table]:
    whether the classification sets it or throws into the [catch]. *)
Lemma on_error_response_caught (r : Response) (w : World) :
  try_catch (on_error_response r) (fun _ => setApiError (Some MSG_WENT_WRONG)) w
  = (Normal tt,
     mkWorld (mkFormState (username (form w)) (password (form w))
                (Some (code_table r)) (isLoading (form w)))
       (trace w)).
Proof.
  unfold code_table, message_has, message_lists, get_message, optional_includes, truthy.
  unfold_handler. destruct r as [st b]. cbn [status body].
  destruct (st =? 401), (st =? 403), (st =? 400), (st =? 500);
    cbn -[lit includes existsb];
    destruct b as [[|b0|n0|s0|e0|props]|]; cbn -[lit includes existsb];
    try reflexivity;
    destruct (get_prop (lit "message") props) as [[|b1|n1|s|elems|ps]|];
    cbn -[lit includes existsb]; try reflexivity;
    try (destruct (includes s (lit "not allowed")); reflexivity);
    destruct (existsb _ elems); reflexivity.
Qed.

(** From the settled promise on. *)
Lemma handleSubmit_resume_spec (o : FetchOutcome) (w : World) :
  handleSubmit_resume o w
  = (Normal tt,
     mkWorld (mkFormState (username (form w)) (password (form w))
                (settled_error o (apiError (form w))) false)
       (trace w ++ settled_effects o)).
Proof.
  destruct o as [|r].
  - cbn. rewrite app_nil_r. reflexivity.
  - unfold handleSubmit_resume, settle.
    unfold try_finally.
    change (try_catch (response <- ret r;; on_response response)
              (fun _ => setApiError (Some MSG_WENT_WRONG)) w)
      with (try_catch (on_response r)
              (fun _ => setApiError (Some MSG_WENT_WRONG)) w).
    unfold on_response, settled_error, settled_effects.
    destruct (ok r) eqn:E.
    + reflexivity.
    + rewrite on_error_response_caught. cbn. rewrite app_nil_r. reflexivity.
Qed.

(** A request never throws on its way out, so the handler is its two
    halves one after the other. *)
Lemma handleSubmit_split (o : FetchOutcome) (w : World) :
  handleSubmit o w
  = (started <- handleSubmit_start ;;
     if started then handleSubmit_resume o else ret tt) w.
Proof.
  unfold handleSubmit, handleSubmit_start, handleSubmit_resume, fetch.
  unfold bind at 1 2 3 5 6 7. unfold get_form, preventDefault, ret at 1 3.
  cbn.
  destruct (isFormValid (username (form w)) (password (form w))); cbn.
  - reflexivity.
  - reflexivity.
Qed.

Lemma handleSubmit_start_invalid (w : World) :
  isFormValid (username (form w)) (password (form w)) = false ->
  handleSubmit_start w
  = (Normal false,
     mkWorld (mkFormState (username (form w)) (password (form w)) None
                (isLoading (form w)))
       (trace w)).
Proof.
  intros H. unfold_handler. cbn. rewrite H. reflexivity.
Qed.

Lemma handleSubmit_start_valid (w : World) :
  isFormValid (username (form w)) (password (form w)) = true ->
  handleSubmit_start w
  = (Normal true,
     mkWorld (mkFormState (username (form w)) (password (form w)) None true)
       (trace w ++ [request_of (form w)])).
Proof.
  intros H. unfold_handler. cbn. rewrite H. reflexivity.
Qed.

(** The handler on a form that is not valid: the error is cleared, then
    the handler returns. *)
Lemma handleSubmit_invalid (o : FetchOutcome) (w : World) :
  isFormValid (username (form w)) (password (form w)) = false ->
  handleSubmit o w
  = (Normal tt,
     mkWorld (mkFormState (username (form w)) (password (form w)) None
                (isLoading (form w)))
       (trace w)).
Proof.
  intros H. rewrite handleSubmit_split. unfold bind.
  rewrite (handleSubmit_start_invalid w H). reflexivity.
Qed.

(** The handler on a valid form, whatever becomes of the request. *)
Lemma handleSubmit_valid (o : FetchOutcome) (w : World) :
  isFormValid (username (form w)) (password (form w)) = true ->
  handleSubmit o w
  = (Normal tt,
     mkWorld (mkFormState (username (form w)) (password (form w))
                (settled_error o None) false)
       (trace w ++ request_of (form w) :: settled_effects o)).
Proof.
  intros H. rewrite handleSubmit_split. unfold bind.
  rewrite (handleSubmit_start_valid w H), handleSubmit_resume_spec.
  cbn. rewrite <- app_assoc. reflexivity.
Qed.

Lemma code_table_is_spec_table (r : Response) :
  message_lists r (lit "not allowed") = false -> code_table r = spec_table r.
Proof.
  intros H. unfold code_table, spec_table. rewrite H, orb_false_r. reflexivity.
Qed.

(** *** The message of an error response *)

(** C2. For every response that is not 2xx the handler leaves in
    [apiError], in this order of precedence: for status 401 or 403 the
    authentication message; otherwise, for status 400 whose parsed body has a
    [message] with "not allowed" in it, the password message; otherwise
    (status 500, any other status, a body that does not parse) the general
    message. The first two rows hold of every body; the last is for the
    bodies of the interface, whose [message], when there is one, is a string
    and not an array listing that string: then the message is the one the
    table of the specification gives. *)
Theorem handleSubmit_error_message_table (w : World) (r : Response) :
  isFormValid (username (form w)) (password (form w)) = true ->
  ok r = false ->
  let shown := apiError (form (snd (handleSubmit (Resolved r) w))) in
  (status r = 401 \/ status r = 403 -> shown = Some MSG_NOT_AUTHENTICATED)
  /\ (status r = 400 -> message_has r (lit "not allowed") = true ->
      shown = Some MSG_NOT_ALLOWED)
  /\ (message_lists r (lit "not allowed") = false ->
      shown = Some (spec_table r)
      /\ (status r <> 401 -> status r <> 403 ->
          (status r = 400 /\ message_has r (lit "not allowed") = true) \/
          shown = Some MSG_WENT_WRONG)
      /\ (body r = None -> status r <> 401 -> status r <> 403 ->
          shown = Some MSG_WENT_WRONG)).
Proof.
  intros Hv Hok shown. subst shown.
  rewrite (handleSubmit_valid (Resolved r) w Hv). cbn [snd form apiError settled_error].
  rewrite Hok. unfold code_table, spec_table.
  split; [|split].
  - intros [H|H]; rewrite H; reflexivity.
  - intros H400 Hm. rewrite H400, Hm. reflexivity.
  - intros Hl. rewrite Hl, orb_false_r.
    split; [reflexivity|]. split.
    + intros H1 H3.
      apply Z.eqb_neq in H1. apply Z.eqb_neq in H3. rewrite H1, H3. cbn [orb].
      destruct (status r =? 400) eqn:E4; cbn [andb]; [|now right].
      destruct (message_has r (lit "not allowed")); [|now right].
      left. apply Z.eqb_eq in E4. now split.
    + intros Hb H1 H3.
      apply Z.eqb_neq in H1. apply Z.eqb_neq in H3. rewrite H1, H3. cbn [orb].
      unfold message_has. rewrite Hb, andb_false_r. reflexivity.
Qed.

Lemma handleSubmit_error_message_table_witness :
  let w := mkWorld (mkFormState (lit "alice") (lit "Abcdefghi1") None false) [] in
  let r := mkResponse 400
             (Some (JObject [(lit "message", JString (lit "password not allowed"))])) in
  isFormValid (username (form w)) (password (form w)) = true
  /\ ok r = false
  /\ message_lists r (lit "not allowed") = false
  /\ apiError (form (snd (handleSubmit (Resolved r) w))) = Some MSG_NOT_ALLOWED.
Proof.
  intros w r. split; [reflexivity|]. split; [reflexivity|]. split; [reflexivity|].
  destruct (handleSubmit_error_message_table w r eq_refl eq_refl) as (_ & _ & H).
  destruct (H eq_refl) as (Hshown & _).
  rewrite Hshown. reflexivity.
Defined.

(** Outside the interface: were the [message] of a 400 response an array
    with the string "not allowed" as an element, [includes] would be that of
    Array.prototype and the password message would be set. *)
Lemma array_message_shown_as_not_allowed :
  let w := mkWorld (mkFormState (lit "alice") (lit "Abcdefghi1") None false) [] in
  let r := mkResponse 400
             (Some (JObject [(lit "message", JArray [JString (lit "not allowed")])])) in
  message_lists r (lit "not allowed") = true
  /\ apiError (form (snd (handleSubmit (Resolved r) w))) = Some MSG_NOT_ALLOWED.
Proof.
  cbv zeta. split; reflexivity.
Qed.

(** *** A submission while another is in flight *)

Lemma click_ignored_when_disabled (s : Sys) :
  button_disabled (form (world s)) = true -> step s ClickSubmit = s.
Proof. intros H. cbn. now rewrite H. Qed.

Lemma controls_ignored_while_loading (s : Sys) :
  isLoading (form (world s)) = true ->
  step s ClickSubmit = s
  /\ (forall v, step s (TypeUsername v) = s)
  /\ (forall v, step s (TypePassword v) = s).
Proof.
  intros H. cbn. unfold button_disabled, input_disabled. rewrite H. cbn.
  repeat split.
Qed.

Lemma step_keeps_tracking (s : Sys) (e : Event) :
  through_controls e = true ->
  loading_tracks_inflight s -> loading_tracks_inflight (step s e).
Proof.
  unfold loading_tracks_inflight. intros He Hs.
  destruct e as [v|v| | |o]; cbn [step]; try discriminate.
  - unfold input_disabled. destruct (isLoading (form (world s))) eqn:E.
    + now rewrite E.
    + cbn. now rewrite E.
  - unfold input_disabled. destruct (isLoading (form (world s))) eqn:E.
    + now rewrite E.
    + cbn. now rewrite E.
  - unfold button_disabled.
    destruct (isLoading (form (world s))) eqn:E; cbn [orb].
    + now rewrite E.
    + destruct (isFormValid (username (form (world s))) (password (form (world s))))
        eqn:V; cbn [negb].
      * unfold deliver_submit. rewrite (handleSubmit_start_valid _ V). cbn.
        now rewrite Hs.
      * now rewrite E.
  - destruct (inflight s) as [|n] eqn:I.
    + now rewrite I.
    + rewrite handleSubmit_resume_spec. cbn.
      destruct (isLoading (form (world s))); congruence.
Qed.

Lemma run_keeps_tracking (es : list Event) (s : Sys) :
  forallb through_controls es = true ->
  loading_tracks_inflight s -> loading_tracks_inflight (run s es).
Proof.
  revert s. induction es as [|e es IH]; intros s Hes Hs; cbn in *.
  - exact Hs.
  - apply andb_true_iff in Hes. destruct Hes as [He Hes].
    apply IH; [exact Hes|]. now apply step_keeps_tracking.
Qed.

(** C3, as the code has it. The handler does not look at [isLoading]; the
    form does: while a submission is in flight the submit button and the two
    inputs are disabled, so a second attempt through the button sends no
    request and leaves [apiError] and everything else as it is, and in every
    run that goes through the controls at most one request is in flight. *)
Theorem one_submission_in_flight_through_controls (es : list Event) :
  forallb through_controls es = true ->
  let s := run initial es in
  (inflight s <= 1)%nat
  /\ (isLoading (form (world s)) = true <-> inflight s = 1%nat)
  /\ (isLoading (form (world s)) = true -> step s ClickSubmit = s).
Proof.
  intros Hes s.
  assert (loading_tracks_inflight s) as Hs.
  { apply run_keeps_tracking; [exact Hes | reflexivity]. }
  unfold loading_tracks_inflight in Hs.
  split; [|split].
  - rewrite Hs. destruct (isLoading (form (world s))); lia.
  - rewrite Hs. destruct (isLoading (form (world s))); split; congruence.
  - intros H. now apply controls_ignored_while_loading.
Qed.

Lemma one_submission_in_flight_witness :
  let es := [TypeUsername (lit "alice"); TypePassword (lit "Abcdefghi1");
             ClickSubmit; ClickSubmit] in
  forallb through_controls es = true
  /\ (inflight (run initial es) <= 1)%nat.
Proof.
  intros es. split; [reflexivity|].
  apply (one_submission_in_flight_through_controls es). reflexivity.
Defined.

(** C3, as stated, fails for the handler: called while [isLoading] is set,
    on a valid form, it sends a second request. *)
Lemma submit_event_while_loading_sends_again :
  let s := run initial [TypeUsername (lit "alice"); TypePassword (lit "Abcdefghi1");
                        ClickSubmit] in
  isLoading (form (world s)) = true
  /\ inflight s = 1%nat
  /\ List.length (fetch_calls (trace (world s))) = 1%nat
  /\ List.length (fetch_calls (trace (snd (handleSubmit Rejected (world s))))) = 2%nat
  /\ List.length (fetch_calls (trace (snd (handleSubmit_start (world s))))) = 2%nat
  /\ inflight (step s SubmitEvent) = 2%nat.
Proof. cbv zeta. repeat split. Qed.

(** *** A submission that is turned down *)

(** C4, as the code has it. On a form that is not valid the handler clears
    [apiError] and returns: the username, the password and [isLoading] stay
    as they are, no request leaves and [setUserWasCreated] is not called.
    Whenever the button is disabled (form not valid, or a submission in
    flight) an attempt through the button changes nothing at all. *)
Theorem rejected_submit_frame (s : Sys) (o : FetchOutcome) :
  (isFormValid (username (form (world s))) (password (form (world s))) = false ->
   handleSubmit o (world s)
   = (Normal tt,
      mkWorld (mkFormState (username (form (world s))) (password (form (world s)))
                 None (isLoading (form (world s))))
        (trace (world s))))
  /\ (button_disabled (form (world s)) = true -> step s ClickSubmit = s).
Proof.
  split.
  - apply handleSubmit_invalid.
  - apply click_ignored_when_disabled.
Qed.

Lemma rejected_submit_frame_witness :
  let s := mkSys (mkWorld (mkFormState (lit "  ") (lit "Abcdefghi1") None false) []) 0 in
  isFormValid (username (form (world s))) (password (form (world s))) = false
  /\ button_disabled (form (world s)) = true
  /\ handleSubmit Rejected (world s) = (Normal tt, world s)
  /\ step s ClickSubmit = s.
Proof.
  intros s. split; [reflexivity|]. split; [reflexivity|]. split.
  - apply (proj1 (rejected_submit_frame s Rejected)). reflexivity.
  - apply (proj2 (rejected_submit_frame s Rejected)). reflexivity.
Defined.

(** C4, as stated, fails: after a failed submission the user empties the
    username; the form is not valid, the message of the failure is still
    there, and the handler, when called, removes it. *)
Lemma invalid_submit_clears_error :
  let s := run initial [TypeUsername (lit "alice"); TypePassword (lit "Abcdefghi1");
                        ClickSubmit; Settle (Resolved (mkResponse 500 None));
                        TypeUsername (lit "")] in
  isFormValid (username (form (world s))) (password (form (world s))) = false
  /\ apiError (form (world s)) = Some MSG_WENT_WRONG
  /\ apiError (form (snd (handleSubmit Rejected (world s)))) = None
  /\ form (snd (handleSubmit Rejected (world s))) <> form (world s)
  /\ step s SubmitEvent <> s.
Proof.
  cbv zeta. repeat split; vm_compute; discriminate.
Qed.

(** *** A response that is 2xx *)

Lemma created_calls_app (t1 t2 : list Effect) :
  created_calls (t1 ++ t2) = created_calls t1 ++ created_calls t2.
Proof. unfold created_calls. apply flat_map_app. Qed.

Lemma fetch_calls_app (t1 t2 : list Effect) :
  fetch_calls (t1 ++ t2) = fetch_calls t1 ++ fetch_calls t2.
Proof. unfold fetch_calls. apply filter_app. Qed.

(** C5, as the code has it. On every 2xx response, whatever its body, the
    handler calls [setUserWasCreated(true)] once and nothing else of the
    owner, sends the one request, leaves [apiError] null, the username and
    the password as they were, and sets [isLoading] back to false. *)
Theorem success_response_effects (w : World) (r : Response) :
  isFormValid (username (form w)) (password (form w)) = true ->
  ok r = true ->
  fst (handleSubmit (Resolved r) w) = Normal tt
  /\ trace (snd (handleSubmit (Resolved r) w))
     = trace w ++ [request_of (form w); SetUserWasCreated true]
  /\ created_calls (trace (snd (handleSubmit (Resolved r) w)))
     = created_calls (trace w) ++ [true]
  /\ form (snd (handleSubmit (Resolved r) w))
     = mkFormState (username (form w)) (password (form w)) None false.
Proof.
  intros Hv Hok.
  rewrite (handleSubmit_valid (Resolved r) w Hv).
  cbn [fst snd trace form settled_error settled_effects]. rewrite Hok.
  repeat split.
  rewrite created_calls_app. reflexivity.
Qed.

Lemma success_response_effects_witness :
  let w := mkWorld (mkFormState (lit "alice") (lit "Abcdefghi1") None false) [] in
  let r := mkResponse 201 None in
  isFormValid (username (form w)) (password (form w)) = true
  /\ ok r = true
  /\ created_calls (trace (snd (handleSubmit (Resolved r) w))) = [true].
Proof.
  intros w r. split; [reflexivity|]. split; [reflexivity|].
  apply (success_response_effects w r); reflexivity.
Defined.

(** C5, as stated, fails: the component has no state of its own for a
    success. After a 2xx response [isLoading] is false again and the button
    is enabled; a click starts another submission, and a second 2xx response
    calls [setUserWasCreated(true)] a second time. *)
Lemma form_accepts_submit_after_success :
  let s := run initial [TypeUsername (lit "alice"); TypePassword (lit "Abcdefghi1");
                        ClickSubmit; Settle (Resolved (mkResponse 200 None))] in
  created_calls (trace (world s)) = [true]
  /\ isLoading (form (world s)) = false
  /\ button_disabled (form (world s)) = false
  /\ step s ClickSubmit <> s
  /\ isLoading (form (world (step s ClickSubmit))) = true
  /\ inflight (step s ClickSubmit) = 1%nat
  /\ created_calls
       (trace (world (run s [ClickSubmit; Settle (Resolved (mkResponse 200 None))])))
     = [true; true].
Proof.
  cbv zeta. repeat split. vm_compute. discriminate.
Qed.

(** *** Faults *)

(** The handler always completes normally: what is thrown inside the [try]
    (a rejected request, a [message] that cannot be read) ends in the
    [catch]. *)
Lemma handleSubmit_completes (o : FetchOutcome) (w : World) :
  fst (handleSubmit o w) = Normal tt.
Proof.
  destruct (isFormValid (username (form w)) (password (form w))) eqn:V.
  - now rewrite (handleSubmit_valid o w V).
  - now rewrite (handleSubmit_invalid o w V).
Qed.

(** Without the [catch] a body of [null] on a 400 response does throw. *)
Lemma null_body_throws_inside_try :
  fst (on_error_response (mkResponse 400 (Some JNull))
         (mkWorld (mkFormState [] [] None true) []))
  = Throws TypeError.
Proof. reflexivity. Qed.

Lemma code_table_unparseable (st : Z) :
  code_table (mkResponse st None)
  = if (st =? 401) || (st =? 403) then MSG_NOT_AUTHENTICATED else MSG_WENT_WRONG.
Proof.
  unfold code_table, message_has, message_lists. cbn.
  rewrite andb_false_r. reflexivity.
Qed.

Lemma code_table_null (st : Z) :
  code_table (mkResponse st (Some JNull))
  = if (st =? 401) || (st =? 403) then MSG_NOT_AUTHENTICATED else MSG_WENT_WRONG.
Proof.
  unfold code_table, message_has, message_lists. cbn.
  rewrite andb_false_r. reflexivity.
Qed.

Lemma spec_table_unparseable (st : Z) :
  spec_table (mkResponse st None)
  = if (st =? 401) || (st =? 403) then MSG_NOT_AUTHENTICATED else MSG_WENT_WRONG.
Proof.
  unfold spec_table, message_has. cbn. rewrite andb_false_r. reflexivity.
Qed.

(** C6. No fault leaves the handler, whatever the state and however the
    request ends: a rejected request, a body that does not parse, a body whose
    [message] cannot be read. A body that does not parse counts as the empty
    object and the classification goes on by the table: the message is the
    general one, "Something went wrong, please try again.", where the status
    is not one of 401 and 403, which come first in the table. A rejected
    request gives the general message. In each case [isLoading] is false
    afterwards and the username and the password are as before. *)
Theorem no_fault_escapes_handleSubmit (w : World) (o : FetchOutcome) :
  fst (handleSubmit o w) = Normal tt
  /\ (isFormValid (username (form w)) (password (form w)) = true ->
      (forall st, ok (mkResponse st None) = false ->
         form (snd (handleSubmit (Resolved (mkResponse st None)) w))
         = mkFormState (username (form w)) (password (form w))
             (Some (spec_table (mkResponse st None))) false
         /\ (st <> 401 -> st <> 403 ->
             apiError (form (snd (handleSubmit (Resolved (mkResponse st None)) w)))
             = Some MSG_WENT_WRONG))
      /\ (forall st, ok (mkResponse st (Some JNull)) = false ->
            form (snd (handleSubmit (Resolved (mkResponse st (Some JNull))) w))
            = mkFormState (username (form w)) (password (form w))
                (Some (spec_table (mkResponse st (Some JNull)))) false)
      /\ form (snd (handleSubmit Rejected w))
         = mkFormState (username (form w)) (password (form w))
             (Some MSG_WENT_WRONG) false).
Proof.
  split; [apply handleSubmit_completes|].
  intros Hv. split; [|split].
  - intros st Hok. rewrite (handleSubmit_valid _ w Hv).
    cbn [snd form apiError settled_error].
    rewrite Hok, code_table_unparseable, spec_table_unparseable.
    split; [reflexivity|].
    intros H1 H3. apply Z.eqb_neq in H1. apply Z.eqb_neq in H3.
    now rewrite H1, H3.
  - intros st Hok. rewrite (handleSubmit_valid _ w Hv).
    cbn [snd form settled_error]. rewrite Hok, code_table_null.
    unfold spec_table, message_has. cbn. rewrite andb_false_r. reflexivity.
  - rewrite (handleSubmit_valid _ w Hv). reflexivity.
Qed.

Lemma no_fault_escapes_witness :
  let w := mkWorld (mkFormState (lit "alice") (lit "Abcdefghi1") None false) [] in
  isFormValid (username (form w)) (password (form w)) = true
  /\ apiError (form (snd (handleSubmit (Resolved (mkResponse 400 None)) w)))
     = Some MSG_WENT_WRONG
  /\ apiError (form (snd (handleSubmit Rejected w))) = Some MSG_WENT_WRONG.
Proof.
  intros w. split; [reflexivity|].
  destruct (proj2 (no_fault_escapes_handleSubmit w Rejected) eq_refl)
    as (Hparse & _ & Hrej).
  split.
  - destruct (Hparse 400 eq_refl) as (_ & Hdefault).
    apply Hdefault; discriminate.
  - rewrite Hrej. reflexivity.
Defined.

(** By the precedence of the table a 401 keeps the authentication message
    also when its body does not parse. *)
Lemma unparseable_401_keeps_auth_message :
  let w := mkWorld (mkFormState (lit "alice") (lit "Abcdefghi1") None false) [] in
  let r := mkResponse 401 None in
  fst (handleSubmit (Resolved r) w) = Normal tt
  /\ spec_table r = MSG_NOT_AUTHENTICATED
  /\ apiError (form (snd (handleSubmit (Resolved r) w))) = Some (spec_table r).
Proof.
  cbv zeta. repeat split.
Qed.

(** *** Leaving the loading state *)

Lemma step_loading_has_request (s : Sys) (e : Event) :
  (isLoading (form (world s)) = true -> (1 <= inflight s)%nat) ->
  isLoading (form (world (step s e))) = true -> (1 <= inflight (step s e))%nat.
Proof.
  intros Hs.
  assert (isLoading (form (world (deliver_submit s))) = true ->
          (1 <= inflight (deliver_submit s))%nat) as Hsubmit.
  { unfold deliver_submit.
    destruct (isFormValid (username (form (world s))) (password (form (world s))))
      eqn:V.
    - rewrite (handleSubmit_start_valid _ V). cbn. lia.
    - rewrite (handleSubmit_start_invalid _ V). cbn. exact Hs. }
  destruct e as [v|v| | |o]; cbn [step].
  - destruct (input_disabled (form (world s))); [exact Hs|]. cbn. exact Hs.
  - destruct (input_disabled (form (world s))); [exact Hs|]. cbn. exact Hs.
  - destruct (button_disabled (form (world s))); [exact Hs | exact Hsubmit].
  - exact Hsubmit.
  - destruct (inflight s) as [|n] eqn:I.
    + rewrite I. exact Hs.
    + rewrite handleSubmit_resume_spec. cbn. discriminate.
Qed.

Lemma run_loading_has_request (es : list Event) (s : Sys) :
  (isLoading (form (world s)) = true -> (1 <= inflight s)%nat) ->
  isLoading (form (world (run s es))) = true -> (1 <= inflight (run s es))%nat.
Proof.
  revert s. induction es as [|e es IH]; intros s Hs; cbn.
  - exact Hs.
  - apply IH. now apply step_loading_has_request.
Qed.

(** C7. Every call of the handler that gets past the validity check ends
    with [isLoading] false, however the request ends: a 2xx response, any
    other response, or a rejected request. The handler sets the flag before
    the request and its [finally] clears it, so in every run of the component
    a set flag means a request is still out, and its settling clears it. *)
Theorem handleSubmit_leaves_loading (w : World) (o : FetchOutcome) (es : list Event) :
  isFormValid (username (form w)) (password (form w)) = true ->
  fst (handleSubmit o w) = Normal tt
  /\ isLoading (form (snd (handleSubmit o w))) = false
  /\ isLoading (form (snd (handleSubmit_start w))) = true
  /\ (forall w', isLoading (form (snd (handleSubmit_resume o w'))) = false)
  /\ (isLoading (form (world (run initial es))) = true ->
      (1 <= inflight (run initial es))%nat
      /\ isLoading (form (world (step (run initial es) (Settle o)))) = false).
Proof.
  intros Hv. split; [apply handleSubmit_completes|].
  split; [now rewrite (handleSubmit_valid o w Hv)|].
  split; [now rewrite (handleSubmit_start_valid w Hv)|].
  split; [intros w'; now rewrite handleSubmit_resume_spec|].
  intros Hl.
  assert (1 <= inflight (run initial es))%nat as Hin.
  { apply run_loading_has_request; [discriminate | exact Hl]. }
  split; [exact Hin|].
  cbn [step]. destruct (inflight (run initial es)) as [|n]; [lia|].
  now rewrite handleSubmit_resume_spec.
Qed.

Lemma handleSubmit_leaves_loading_witness :
  let w := mkWorld (mkFormState (lit "alice") (lit "Abcdefghi1") None false) [] in
  isFormValid (username (form w)) (password (form w)) = true
  /\ isLoading (form (snd (handleSubmit Rejected w))) = false.
Proof.
  intros w. split; [reflexivity|].
  destruct (handleSubmit_leaves_loading w Rejected [] eq_refl) as (_ & H & _).
  exact H.
Defined.

(** *** The success callback *)

Lemma step_created_calls (s : Sys) (e : Event) :
  exists l, created_calls (trace (world (step s e)))
            = created_calls (trace (world s)) ++ l
            /\ Forall (fun b => b = true) l.
Proof.
  assert (exists l, created_calls (trace (world s))
                    = created_calls (trace (world s)) ++ l
                    /\ Forall (fun b => b = true) l) as Hsame.
  { exists []. rewrite app_nil_r. split; [reflexivity | constructor]. }
  assert (exists l, created_calls (trace (world (deliver_submit s)))
                    = created_calls (trace (world s)) ++ l
                    /\ Forall (fun b => b = true) l) as Hsubmit.
  { unfold deliver_submit.
    destruct (isFormValid (username (form (world s))) (password (form (world s))))
      eqn:V.
    - rewrite (handleSubmit_start_valid _ V). cbn [world trace].
      exists []. rewrite created_calls_app. split; [reflexivity | constructor].
    - rewrite (handleSubmit_start_invalid _ V). cbn [world trace]. exact Hsame. }
  destruct e as [v|v| | |o]; cbn [step].
  - destruct (input_disabled (form (world s))); exact Hsame.
  - destruct (input_disabled (form (world s))); exact Hsame.
  - destruct (button_disabled (form (world s))); [exact Hsame | exact Hsubmit].
  - exact Hsubmit.
  - destruct (inflight s) as [|n]; [exact Hsame|].
    rewrite handleSubmit_resume_spec. cbn [snd world trace].
    rewrite created_calls_app.
    exists (created_calls (settled_effects o)). split; [reflexivity|].
    destruct o as [|r]; cbn; [constructor|].
    destruct (ok r); cbn; repeat constructor.
Qed.

Lemma run_created_calls (es : list Event) (s : Sys) :
  Forall (fun b => b = true) (created_calls (trace (world s))) ->
  Forall (fun b => b = true) (created_calls (trace (world (run s es)))).
Proof.
  revert s. induction es as [|e es IH]; intros s Hs; cbn.
  - exact Hs.
  - apply IH. destruct (step_created_calls s e) as (l & -> & Hl).
    apply Forall_app. now split.
Qed.

(** C10. One call of the handler calls [setUserWasCreated] at most once,
    with [true], and does so exactly when the form is valid and the request
    ends in a 2xx response: never for another status, a rejected request or a
    form that is not valid. In every run of the component every call of
    [setUserWasCreated] has the argument [true]. *)
Theorem setUserWasCreated_only_true_only_on_ok (w : World) (o : FetchOutcome)
  (es : list Event) :
  created_calls (trace (snd (handleSubmit o w)))
  = created_calls (trace w)
    ++ (if isFormValid (username (form w)) (password (form w)) && outcome_ok o
        then [true] else [])
  /\ Forall (fun b => b = true) (created_calls (trace (world (run initial es)))).
Proof.
  split.
  - destruct (isFormValid (username (form w)) (password (form w))) eqn:V.
    + rewrite (handleSubmit_valid o w V). cbn [snd trace andb].
      rewrite created_calls_app. f_equal.
      destruct o as [|r]; cbn; [reflexivity|].
      destruct (ok r); reflexivity.
    + rewrite (handleSubmit_invalid o w V). cbn. now rewrite app_nil_r.
  - apply run_created_calls. constructor.
Qed.

(** ** More on the rule engine *)

Lemma isPasswordValid_iff_nil (p : jsstring) :
  isPasswordValid p = true <-> activeCriteria p = [].
Proof.
  unfold isPasswordValid. rewrite andb_true_iff, Z.eqb_eq, Z.gtb_lt. split.
  - intros [H _]. destruct (activeCriteria p); [reflexivity | cbn in H; lia].
  - intros H. split; [now rewrite H|].
    apply activeCriteria_nil_iff_validate in H. destruct H as [H _].
    unfold length. destruct p; [now elim H | cbn; lia].
Qed.

(** X1. [isPasswordValid] holds exactly when no rule is unmet, that is when
    the password meets the six rules: its second test,
    [password.length > 0], never decides, since the empty password has all
    six rules unmet. *)
Theorem isPasswordValid_iff_none_unmet (p : jsstring) :
  (isPasswordValid p = true <-> activeCriteria p = [])
  /\ (isPasswordValid p = true <-> satisfies_all_rules p)
  /\ isPasswordValid p
     = (Z.of_nat (List.length (activeCriteria p)) =? 0).
Proof.
  split; [apply isPasswordValid_iff_nil|]. split.
  - rewrite isPasswordValid_iff_nil, activeCriteria_nil_iff_validate.
    apply validate_all_iff_rules.
  - unfold isPasswordValid.
    destruct (Z.of_nat (List.length (activeCriteria p)) =? 0) eqn:E;
      [|reflexivity].
    cbn [andb]. apply Z.eqb_eq in E.
    assert (activeCriteria p = []) as Hn
      by (destruct (activeCriteria p); [reflexivity | cbn in E; lia]).
    apply activeCriteria_nil_iff_validate in Hn. destruct Hn as [Hn _].
    apply Z.gtb_lt. unfold length. destruct p; [now elim Hn | cbn; lia].
Qed.

Lemma filter_length_le {A} (f : A -> bool) (l : list A) :
  (List.length (filter f l) <= List.length l)%nat.
Proof.
  induction l as [|x l IH]; cbn; [lia|]. destruct (f x); cbn; lia.
Qed.

Lemma NoDup_map_filter {A B} (g : A -> B) (f : A -> bool) (l : list A) :
  NoDup (map g l) -> NoDup (map g (filter f l)).
Proof.
  induction l as [|x l IH]; cbn; intros H; [exact H|].
  inversion H as [|? ? Hnotin Hnd]; subst.
  destruct (f x); cbn; [|now apply IH].
  constructor; [|now apply IH].
  intros Hin. apply Hnotin.
  apply in_map_iff in Hin. destruct Hin as (y & Hy & Hf).
  apply filter_In in Hf. rewrite <- Hy. apply in_map. tauto.
Qed.

Lemma activeCriteria_at_most_five (p : jsstring) :
  p <> [] -> (List.length (activeCriteria p) <= 5)%nat.
Proof.
  intros Hp. unfold activeCriteria.
  destruct p as [|a p]; [now elim Hp|]. cbn [falsy].
  rewrite length_map. cbn [PASSWORD_CRITERIA filter validate].
  destruct (length (a :: p) >=? 10) eqn:E1; cbn [negb].
  - pose proof (filter_length_le
      (fun c => negb (validate c (a :: p))) (tl PASSWORD_CRITERIA)) as Hle.
    cbn [PASSWORD_CRITERIA tl filter validate List.length] in Hle. exact Hle.
  - destruct (length (a :: p) <=? 24) eqn:E2; cbn [negb].
    + pose proof (filter_length_le
        (fun c => negb (validate c (a :: p))) (tl (tl PASSWORD_CRITERIA))) as Hle.
      cbn [PASSWORD_CRITERIA tl filter validate List.length] in Hle.
      cbn [List.length]. lia.
    + rewrite Z.geb_leb, Z.leb_gt in E1. rewrite Z.leb_gt in E2. lia.
Qed.

(** X2. All six descriptions come back only for the empty password: a
    password that is not empty has at most five unmet rules, since it cannot
    be both shorter than 10 and longer than 24. No description comes back
    twice. *)
Theorem activeCriteria_six_only_when_empty (p : jsstring) :
  (List.length (activeCriteria p) = 6%nat <-> p = [])
  /\ (p <> [] -> (List.length (activeCriteria p) <= 5)%nat)
  /\ NoDup (activeCriteria p).
Proof.
  split; [|split].
  - split.
    + intros H6. destruct p as [|a p]; [reflexivity|].
      assert (a :: p <> []) as Hp by discriminate.
      pose proof (activeCriteria_at_most_five _ Hp). lia.
    + intros ->. reflexivity.
  - apply activeCriteria_at_most_five.
  - unfold activeCriteria. destruct (falsy p).
    + apply labels_NoDup.
    + apply NoDup_map_filter, labels_NoDup.
Qed.

Lemma activeCriteria_six_witness :
  lit "a b" <> [] /\ (List.length (activeCriteria (lit "a b")) <= 5)%nat.
Proof.
  split; [discriminate|].
  apply (proj1 (proj2 (activeCriteria_six_only_when_empty (lit "a b")))).
  discriminate.
Defined.

(** X3. A valid password stays valid while more code units are typed after
    it, as long as none of them is whitespace and the length stays at most
    24. *)
Theorem isPasswordValid_extends (p q : jsstring) :
  isPasswordValid p = true ->
  (forall c, In c q -> ~ Whitespace c) ->
  length (p ++ q) <= 24 ->
  isPasswordValid (p ++ q) = true.
Proof.
  intros Hp Hq Hlen.
  apply isPasswordValid_iff_nil.
  apply isPasswordValid_iff_nil in Hp.
  apply activeCriteria_nil_iff_validate, validate_all_iff_rules.
  apply activeCriteria_nil_iff_validate, validate_all_iff_rules in Hp.
  destruct Hp as (H1 & H2 & H3 & (d & Hd & Hd') & (u & Hu & Hu') & (l & Hl & Hl')).
  unfold satisfies_all_rules.
  assert (length p <= length (p ++ q)) as Hmono.
  { unfold length. rewrite length_app. lia. }
  repeat split.
  - lia.
  - exact Hlen.
  - intros c Hin. apply in_app_or in Hin. destruct Hin; auto.
  - exists d. split; [apply in_or_app; now left | exact Hd'].
  - exists u. split; [apply in_or_app; now left | exact Hu'].
  - exists l. split; [apply in_or_app; now left | exact Hl'].
Qed.

Lemma isPasswordValid_extends_witness :
  isPasswordValid (lit "Abcdefghi1") = true
  /\ length (lit "Abcdefghi1" ++ lit "xyz") <= 24
  /\ isPasswordValid (lit "Abcdefghi1" ++ lit "xyz") = true.
Proof.
  split; [reflexivity|]. split; [vm_compute; discriminate|].
  apply (isPasswordValid_extends (lit "Abcdefghi1") (lit "xyz")).
  - reflexivity.
  - intros c Hin Hw. apply is_whitespace_spec in Hw.
    cbn in Hin. destruct Hin as [<-|[<-|[<-|[]]]]; discriminate.
  - vm_compute; discriminate.
Defined.

(** ** The rendered form *)

Lemma falsy_length (t : jsstring) : falsy t = negb (length t >? 0).
Proof. destruct t; [reflexivity|]. unfold length. cbn [falsy List.length].
  symmetry. apply negb_false_iff, Z.gtb_lt. lia.
Qed.

Lemma all_whitespace_iff (u : jsstring) :
  (length (trim u) >? 0) = false <-> forall c, In c u -> Whitespace c.
Proof.
  split.
  - intros H c Hin.
    destruct (is_whitespace c) eqn:E; [now apply is_whitespace_spec|].
    assert ((length (trim u) >? 0) = true) as Ht.
    { apply trim_nonempty_iff. exists c. split; [exact Hin|].
      intros Hw. apply is_whitespace_spec in Hw. congruence. }
    congruence.
  - intros H. destruct (length (trim u) >? 0) eqn:E; [|reflexivity].
    apply trim_nonempty_iff in E. destruct E as (c & Hin & Hn).
    now elim Hn; apply H.
Qed.

(** X4. The list of unmet rules is rendered exactly when the password is
    not empty and not valid. What it then shows is not empty, has at most
    five items, and holds the description of a rule if and only if that
    rule's predicate fails on the password: the six descriptions computed for
    the empty password are never on screen. *)
Theorem criteria_list_shows_failing_rules (s : FormState) :
  (criteria_list (render s) = None
   <-> password s = [] \/ isPasswordValid (password s) = true)
  /\ (forall l, criteria_list (render s) = Some l ->
        password s <> []
        /\ l <> []
        /\ (List.length l <= 5)%nat
        /\ (forall c, In c PASSWORD_CRITERIA ->
              (In (label c) l <-> validate c (password s) = false))).
Proof.
  cbn [render criteria_list].
  destruct (length (password s) >? 0) eqn:E1; cbn [andb].
  - assert (password s <> []) as Hp.
    { intros Hn. rewrite Hn in E1. discriminate. }
    destruct (Z.of_nat (List.length (activeCriteria (password s))) >? 0) eqn:E2.
    + assert (activeCriteria (password s) <> []) as Hne.
      { intros Hn. rewrite Hn in E2. discriminate. }
      split.
      * split; [discriminate|]. intros [H|H]; [now elim Hp|].
        apply isPasswordValid_iff_nil in H. now elim Hne.
      * intros l [= <-]. split; [exact Hp|]. split; [exact Hne|].
        split; [now apply activeCriteria_at_most_five|].
        intros c Hin. unfold activeCriteria.
        assert (falsy (password s) = false) as ->
          by (destruct (password s); [now elim Hp | reflexivity]).
        rewrite (In_map_filter_iff label _ PASSWORD_CRITERIA c labels_NoDup Hin).
        apply negb_true_iff.
    + split; [|discriminate].
      split; [|reflexivity]. intros _. right.
      apply isPasswordValid_iff_nil.
      destruct (activeCriteria (password s)); [reflexivity|].
      rewrite Z.gtb_ltb in E2. apply Z.ltb_ge in E2. cbn in E2. lia.
  - split; [|discriminate].
    split; [|reflexivity]. intros _. left.
    destruct (password s); [reflexivity|].
    rewrite Z.gtb_ltb in E1. apply Z.ltb_ge in E1. unfold length in E1. cbn in E1. lia.
Qed.

Lemma criteria_list_witness :
  let s := mkFormState (lit "alice") (lit "short1A") None false in
  criteria_list (render s) = Some ["Password must be at least 10 characters long"%string]
  /\ password s <> [].
Proof.
  intros s. split; [reflexivity|].
  apply (proj2 (criteria_list_shows_failing_rules s)
           ["Password must be at least 10 characters long"%string]).
  reflexivity.
Defined.

(** X5. The submit button is disabled exactly when the form is loading or
    one of the two inputs is marked [aria-invalid]; the username is marked
    exactly when it holds nothing but whitespace, the password exactly when
    it is not valid. *)
Theorem submit_disabled_iff_marked (s : FormState) :
  submit_disabled (render s)
  = isLoading s || username_aria_invalid (render s) || password_aria_invalid (render s)
  /\ (username_aria_invalid (render s) = true
      <-> forall c, In c (username s) -> Whitespace c)
  /\ (password_aria_invalid (render s) = false
      <-> satisfies_all_rules (password s)).
Proof.
  cbn [render submit_disabled username_aria_invalid password_aria_invalid].
  rewrite falsy_length. split; [|split].
  - unfold button_disabled, isFormValid.
    rewrite negb_andb, orb_assoc. reflexivity.
  - rewrite negb_true_iff. apply all_whitespace_iff.
  - rewrite negb_false_iff, isPasswordValid_iff_nil,
      activeCriteria_nil_iff_validate.
    apply validate_all_iff_rules.
Qed.

(** X6. The submit button is enabled exactly when nothing is loading, the
    username has a code unit that is not whitespace, and the password meets
    the six rules. *)
Theorem submit_enabled_iff (s : FormState) :
  submit_disabled (render s) = false
  <-> isLoading s = false
      /\ (exists c, In c (username s) /\ ~ Whitespace c)
      /\ satisfies_all_rules (password s).
Proof.
  cbn [render submit_disabled]. unfold button_disabled.
  rewrite orb_false_iff, negb_false_iff, isFormValid_iff. tauto.
Qed.

(** ** More on the handler *)

Lemma fetch_calls_settled (o : FetchOutcome) : fetch_calls (settled_effects o) = [].
Proof. destruct o as [|r]; cbn; [reflexivity|]. destruct (ok r); reflexivity. Qed.

(** X7. One call of the handler sends exactly one request when the form is
    valid and none when it is not, however the request ends. The request goes
    to the signup address with the username and the password as they are in
    the state: the username is sent as typed, not trimmed. *)
Theorem handleSubmit_sends_one_request (w : World) (o : FetchOutcome) :
  fetch_calls (trace (snd (handleSubmit o w)))
  = fetch_calls (trace w)
    ++ (if isFormValid (username (form w)) (password (form w))
        then [Fetch "https://api.challenge.hennge.com/password-validation-challenge-api/001/challenge-signup"
                "YOUR_TOKEN_HERE" (username (form w)) (password (form w))]
        else []).
Proof.
  destruct (isFormValid (username (form w)) (password (form w))) eqn:V.
  - rewrite (handleSubmit_valid o w V). cbn [snd trace].
    change (request_of (form w) :: settled_effects o)
      with ([request_of (form w)] ++ settled_effects o).
    rewrite !fetch_calls_app, fetch_calls_settled, app_nil_r. reflexivity.
  - rewrite (handleSubmit_invalid o w V). cbn [snd trace].
    now rewrite app_nil_r.
Qed.

(** X8. The handler never changes the username or the password, and after
    a call on a valid form the button is enabled again, however the request
    ended: a failed submission can be repeated as it is. *)
Theorem handleSubmit_can_be_repeated (w : World) (o : FetchOutcome) :
  isFormValid (username (form w)) (password (form w)) = true ->
  username (form (snd (handleSubmit o w))) = username (form w)
  /\ password (form (snd (handleSubmit o w))) = password (form w)
  /\ button_disabled (form (snd (handleSubmit o w))) = false.
Proof.
  intros V. rewrite (handleSubmit_valid o w V). cbn [snd form username password].
  repeat split. unfold button_disabled. cbn [isLoading username password].
  now rewrite V.
Qed.

Lemma handleSubmit_can_be_repeated_witness :
  let w := mkWorld (mkFormState (lit "alice") (lit "Abcdefghi1") None false) [] in
  isFormValid (username (form w)) (password (form w)) = true
  /\ button_disabled (form (snd (handleSubmit (Resolved (mkResponse 500 None)) w))) = false.
Proof.
  intros w. split; [reflexivity|].
  apply (handleSubmit_can_be_repeated w (Resolved (mkResponse 500 None))).
  reflexivity.
Defined.

(** X9. The body of a response counts only at status 400: for any other
    status two responses with different bodies, parsed or not, leave the
    handler in the same state with the same effects. *)
Theorem body_counts_only_at_400 (w : World) (st : Z) (b1 b2 : option json) :
  st <> 400 ->
  handleSubmit (Resolved (mkResponse st b1)) w
  = handleSubmit (Resolved (mkResponse st b2)) w.
Proof.
  intros Hst. apply Z.eqb_neq in Hst.
  destruct (isFormValid (username (form w)) (password (form w))) eqn:V.
  - rewrite !(handleSubmit_valid _ w V).
    unfold settled_error, settled_effects, ok, code_table. cbn [status].
    rewrite Hst. reflexivity.
  - now rewrite !(handleSubmit_invalid _ w V).
Qed.

Lemma body_counts_only_at_400_witness :
  let w := mkWorld (mkFormState (lit "alice") (lit "Abcdefghi1") None false) [] in
  404 <> 400
  /\ handleSubmit (Resolved (mkResponse 404 (Some JNull))) w
     = handleSubmit (Resolved (mkResponse 404 None)) w.
Proof.
  intros w. split; [discriminate|].
  apply (body_counts_only_at_400 w 404). discriminate.
Defined.

Lemma startsWith_spec (sub s : jsstring) :
  startsWith sub s = true <-> exists post, s = sub ++ post.
Proof.
  revert s. induction sub as [|a sub IH]; intros s; cbn.
  - split; [intros _; now exists s | reflexivity].
  - destruct s as [|b s].
    + split; [discriminate | intros (post & H); discriminate].
    + rewrite andb_true_iff, Z.eqb_eq, IH. split.
      * intros (-> & post & ->). now exists post.
      * intros (post & [= -> ->]). split; [reflexivity | now exists post].
Qed.

Lemma includes_spec (s sub : jsstring) :
  includes s sub = true <-> exists pre post, s = pre ++ sub ++ post.
Proof.
  induction s as [|b s IH].
  - cbn. rewrite orb_false_r, startsWith_spec. split.
    + intros (post & H). now exists [], post.
    + intros (pre & post & H).
      destruct pre; [now exists post | discriminate].
  - cbn [includes]. rewrite orb_true_iff, IH, startsWith_spec. split.
    + intros [(post & H)|(pre & post & H)].
      * now exists [], post.
      * exists (b :: pre), post. cbn. now rewrite H.
    + intros (pre & post & H). destruct pre as [|c pre].
      * left. now exists post.
      * right. cbn in H. injection H as _ H. now exists pre, post.
Qed.

(** X10. For a 400 response whose body is an object with a string
    [message], the password message is shown exactly when "not allowed"
    occurs in that string as a contiguous run of code units (the test is
    case-sensitive); otherwise the general message is shown. *)
Theorem not_allowed_iff_substring (w : World) (props : list (jsstring * json))
  (m : jsstring) :
  isFormValid (username (form w)) (password (form w)) = true ->
  get_prop (lit "message") props = Some (JString m) ->
  let after := form (snd (handleSubmit
                 (Resolved (mkResponse 400 (Some (JObject props)))) w)) in
  (apiError after = Some MSG_NOT_ALLOWED
   <-> exists pre post, m = pre ++ lit "not allowed" ++ post)
  /\ (apiError after = Some MSG_NOT_ALLOWED \/ apiError after = Some MSG_WENT_WRONG).
Proof.
  intros V Hm after. subst after.
  rewrite (handleSubmit_valid _ w V). cbn [snd form apiError settled_error].
  change (ok (mkResponse 400 (Some (JObject props)))) with false. cbn match.
  unfold code_table, message_has, message_lists. cbn [status body].
  rewrite Hm. change (400 =? 401) with false. change (400 =? 403) with false.
  change (400 =? 400) with true. cbn [orb andb].
  rewrite orb_false_r, <- includes_spec.
  destruct (includes m (lit "not allowed")).
  - split; [tauto | now left].
  - split; [|now right]. split; [|discriminate].
    intros H. discriminate H.
Qed.

Lemma not_allowed_iff_substring_witness :
  let w := mkWorld (mkFormState (lit "alice") (lit "Abcdefghi1") None false) [] in
  let props := [(lit "code", JNumber "7"); (lit "message", JString (lit "Not Allowed"))] in
  isFormValid (username (form w)) (password (form w)) = true
  /\ get_prop (lit "message") props = Some (JString (lit "Not Allowed"))
  /\ apiError (form (snd (handleSubmit
        (Resolved (mkResponse 400 (Some (JObject props)))) w))) = Some MSG_WENT_WRONG.
Proof.
  intros w props. split; [reflexivity|]. split; [reflexivity|].
  destruct (not_allowed_iff_substring w props (lit "Not Allowed") eq_refl eq_refl)
    as [_ [H|H]]; [|exact H].
  vm_compute in H. discriminate H.
Defined.

(** ** Runs of the component *)

(** A property kept by every admitted step is kept by every run of
    admitted events. *)
Lemma run_invariant (P : Sys -> Prop) (admitted : Event -> bool) :
  (forall s e, admitted e = true -> P s -> P (step s e)) ->
  forall es s, forallb admitted es = true -> P s -> P (run s es).
Proof.
  intros Hstep es. induction es as [|e es IH]; intros s Hes Hs; cbn in *.
  - exact Hs.
  - apply andb_true_iff in Hes. destruct Hes as [He Hes].
    apply IH; [exact Hes|]. now apply Hstep.
Qed.

Lemma forallb_all_events (es : list Event) : forallb (fun _ => true) es = true.
Proof. induction es; cbn; auto. Qed.

(** What one step can do to the four state cells. *)
Lemma step_form_cases (s : Sys) (e : Event) :
  let f := form (world s) in
  let f' := form (world (step s e)) in
  f' = f
  \/ (isLoading f = false
      /\ exists v, f' = mkFormState v (password f) (apiError f) false)
  \/ (isLoading f = false
      /\ exists v, f' = mkFormState (username f) v (apiError f) false)
  \/ f' = mkFormState (username f) (password f) None (isLoading f)
  \/ f' = mkFormState (username f) (password f) None true
  \/ exists o, f' = mkFormState (username f) (password f)
                      (settled_error o (apiError f)) false.
Proof.
  intros f f'. subst f f'.
  assert (form (world (deliver_submit s))
          = mkFormState (username (form (world s))) (password (form (world s)))
              None (isLoading (form (world s)))
          \/ form (world (deliver_submit s))
             = mkFormState (username (form (world s))) (password (form (world s)))
                 None true) as Hsubmit.
  { unfold deliver_submit.
    destruct (isFormValid (username (form (world s))) (password (form (world s))))
      eqn:V.
    - rewrite (handleSubmit_start_valid _ V). now right.
    - rewrite (handleSubmit_start_invalid _ V). now left. }
  destruct e as [v|v| | |o]; cbn [step].
  - unfold input_disabled. destruct (isLoading (form (world s))) eqn:E.
    + now left.
    + right; left. split; [reflexivity|]. exists v. cbn. now rewrite E.
  - unfold input_disabled. destruct (isLoading (form (world s))) eqn:E.
    + now left.
    + right; right; left. split; [reflexivity|]. exists v. cbn. now rewrite E.
  - destruct (button_disabled (form (world s))); [now left|].
    destruct Hsubmit as [H|H]; rewrite H; tauto.
  - destruct Hsubmit as [H|H]; rewrite H; tauto.
  - destruct (inflight s) as [|n]; [now left|].
    rewrite handleSubmit_resume_spec. cbn [snd world form].
    do 5 right. now exists o.
Qed.

Lemma code_table_cases (r : Response) :
  code_table r = MSG_NOT_AUTHENTICATED
  \/ code_table r = MSG_NOT_ALLOWED
  \/ code_table r = MSG_WENT_WRONG.
Proof.
  unfold code_table.
  destruct ((status r =? 401) || (status r =? 403)); [now left|].
  destruct ((status r =? 400)
            && (message_has r (lit "not allowed")
                || message_lists r (lit "not allowed"))); tauto.
Qed.

Lemma step_known_error (s : Sys) (e : Event) :
  known_error (apiError (form (world s))) ->
  known_error (apiError (form (world (step s e)))).
Proof.
  intros H. unfold known_error in *.
  destruct (step_form_cases s e)
    as [->|[(_ & v & ->)|[(_ & v & ->)|[->|[->|(o & ->)]]]]];
    cbn [apiError]; try tauto.
  destruct o as [|r]; cbn [settled_error]; [tauto|].
  destruct (ok r); [exact H|].
  destruct (code_table_cases r) as [->|[->| ->]]; tauto.
Qed.

(** X11. In every run of the component [apiError] is [null] or one of the
    three messages of the handler, so the error paragraph is rendered
    exactly when [apiError] is not [null], with that message. *)
Theorem error_paragraph_is_known_error (es : list Event) :
  let f := form (world (run initial es)) in
  known_error (apiError f)
  /\ error_paragraph (render f) = apiError f.
Proof.
  intros f.
  assert (known_error (apiError f)) as H.
  { subst f.
    apply (run_invariant (fun s => known_error (apiError (form (world s))))
             (fun _ => true)).
    - intros s e _. apply step_known_error.
    - apply forallb_all_events.
    - now left. }
  split; [exact H|]. cbn [render error_paragraph].
  destruct H as [->|[->|[->| ->]]]; reflexivity.
Qed.

(** X12. In every run of the component, while [isLoading] is set
    [apiError] is [null]: the button never reads "Creating..." beside an
    error paragraph. *)
Theorem no_error_while_loading (es : list Event) :
  let f := form (world (run initial es)) in
  (isLoading f = true -> apiError f = None)
  /\ (submit_label (render f) = "Creating..."%string ->
      error_paragraph (render f) = None).
Proof.
  intros f.
  assert (isLoading f = true -> apiError f = None) as H.
  { subst f.
    apply (run_invariant
             (fun s => isLoading (form (world s)) = true ->
                       apiError (form (world s)) = None)
             (fun _ => true)).
    - intros s e _ Hs.
      destruct (step_form_cases s e)
        as [->|[(Hl & v & ->)|[(Hl & v & ->)|[->|[->|(o & ->)]]]]];
        cbn [apiError isLoading]; try reflexivity; try discriminate.
      exact Hs.
    - apply forallb_all_events.
    - discriminate. }
  split; [exact H|].
  cbn [render submit_label error_paragraph].
  destruct (isLoading f) eqn:E; [|discriminate].
  intros _. now rewrite (H eq_refl).
Qed.

Lemma no_error_while_loading_witness :
  let es := [TypeUsername (lit "alice"); TypePassword (lit "Abcdefghi1"); ClickSubmit;
             Settle (Resolved (mkResponse 500 None)); SubmitEvent] in
  isLoading (form (world (run initial es))) = true
  /\ apiError (form (world (run initial es))) = None.
Proof.
  intros es. split; [reflexivity|].
  apply (proj1 (no_error_while_loading es)). reflexivity.
Defined.

Lemma step_typing_frame (s : Sys) (e : Event) :
  is_typing e = true ->
  apiError (form (world (step s e))) = apiError (form (world s))
  /\ isLoading (form (world (step s e))) = isLoading (form (world s))
  /\ trace (world (step s e)) = trace (world s)
  /\ inflight (step s e) = inflight s.
Proof.
  destruct e as [v|v| | |o]; try discriminate; intros _; cbn [step];
    destruct (input_disabled (form (world s))); repeat split.
Qed.

(** X13. Typing into the inputs, for however long, never clears or sets
    the error message, never sends a request and never changes the loading
    flag: a message stays until the next submission. While the form is
    loading, typing changes nothing at all. *)
Theorem typing_keeps_error (es : list Event) (s : Sys) :
  forallb is_typing es = true ->
  apiError (form (world (run s es))) = apiError (form (world s))
  /\ isLoading (form (world (run s es))) = isLoading (form (world s))
  /\ trace (world (run s es)) = trace (world s)
  /\ inflight (run s es) = inflight s
  /\ (isLoading (form (world s)) = true -> run s es = s).
Proof.
  revert s. induction es as [|e es IH]; intros s Hes.
  - cbn. repeat split.
  - cbn [forallb] in Hes. apply andb_true_iff in Hes. destruct Hes as [He Hes].
    change (run s (e :: es)) with (run (step s e) es).
    destruct (IH (step s e) Hes) as (H1 & H2 & H3 & H4 & H5).
    destruct (step_typing_frame s e He) as (G1 & G2 & G3 & G4).
    split; [congruence|]. split; [congruence|]. split; [congruence|].
    split; [congruence|].
    intros Hl.
    assert (step s e = s) as Hs.
    { destruct e as [v|v| | |o]; try discriminate; cbn [step];
        unfold input_disabled; now rewrite Hl. }
    rewrite Hs in H5 |- *. now apply H5.
Qed.

Lemma typing_keeps_error_witness :
  let s := run initial [TypeUsername (lit "alice"); TypePassword (lit "Abcdefghi1");
                        ClickSubmit; Settle Rejected] in
  let es := [TypePassword (lit "x"); TypeUsername (lit "")] in
  forallb is_typing es = true
  /\ apiError (form (world (run s es))) = Some MSG_WENT_WRONG.
Proof.
  intros s es. split; [reflexivity|].
  rewrite (proj1 (typing_keeps_error es s eq_refl)). reflexivity.
Defined.

(** X14. In every run through the controls, while the form is loading the
    last thing the component did was to send the request, and that request
    holds the username and the password now in the inputs: what is on screen
    is what was sent. *)
Theorem loading_shows_what_was_sent (es : list Event) :
  forallb through_controls es = true ->
  let s := run initial es in
  isLoading (form (world s)) = true ->
  exists t, trace (world s) = t ++ [request_of (form (world s))].
Proof.
  intros Hes s. subst s.
  apply (run_invariant
           (fun s => isLoading (form (world s)) = true ->
                     exists t, trace (world s) = t ++ [request_of (form (world s))])
           through_controls); [|exact Hes|discriminate].
  clear. intros s e He Hs.
  destruct e as [v|v| | |o]; cbn [step]; try discriminate.
  - unfold input_disabled. destruct (isLoading (form (world s))) eqn:E.
    + intros _. now apply Hs.
    + cbn. rewrite E. discriminate.
  - unfold input_disabled. destruct (isLoading (form (world s))) eqn:E.
    + intros _. now apply Hs.
    + cbn. rewrite E. discriminate.
  - unfold button_disabled.
    destruct (isLoading (form (world s))) eqn:E; cbn [orb].
    + intros _. now apply Hs.
    + destruct (isFormValid (username (form (world s))) (password (form (world s))))
        eqn:V; cbn [negb].
      * unfold deliver_submit. rewrite (handleSubmit_start_valid _ V).
        cbn [world form trace]. intros _. now exists (trace (world s)).
      * cbn. rewrite E. discriminate.
  - destruct (inflight s) as [|n].
    + exact Hs.
    + rewrite handleSubmit_resume_spec. cbn. discriminate.
Qed.

Lemma loading_shows_what_was_sent_witness :
  let es := [TypeUsername (lit "alice"); TypePassword (lit "Abcdefghi1"); ClickSubmit;
             TypeUsername (lit "bob")] in
  forallb through_controls es = true
  /\ isLoading (form (world (run initial es))) = true
  /\ exists t, trace (world (run initial es))
               = t ++ [request_of (form (world (run initial es)))].
Proof.
  intros es. split; [reflexivity|]. split; [reflexivity|].
  apply (loading_shows_what_was_sent es); reflexivity.
Defined.
